(** * MongoQueryRunner: a shallow embedding of
    [src/driver/mongodb/MongoQueryRunner.ts] and the properties of its
    transaction lifecycle, pass-through operations and rejected operations.

    The query runner is a class with three pieces of mutable state
    ([isReleased], [isTransactionActive], [session]) that calls out to four
    collaborators: the MongoDB client, the client session, the broadcaster
    and the logger.  Methods are embedded as computations in a small monad
    that threads the runner, records every call made to a collaborator and
    distinguishes a synchronous [throw] from a rejected promise.

    Calls on one runner are taken one at a time, each run to completion,
    and a collaborator answers a call without calling back into the
    runner. *)

From stdpp Require Import base option list gmap strings.

Local Open Scope string_scope.

(** ** Values crossing the boundary with the client *)

(** A client session is an opaque handle. *)
Definition ClientSession := nat.

(** Errors: the two classes the runner constructs itself, and whatever a
    collaborator throws. *)
Inductive Error :=
| TransactionNotStartedError
| TypeORMError (message : string)
| ExternalError (code : nat).

(** Field values of an options object.  Only the session matters to the
    runner; every other value is passed along untouched. *)
Inductive JsValue :=
| undefined
| JsString (s : string)
| JsSession (s : ClientSession)
| JsOpaque (n : nat).

(** [ObjectLiteral]: a JS object used as a string-keyed map. *)
Abbreviation ObjectLiteral := (gmap string JsValue).

(** A positional argument of a client call. *)
Inductive Arg :=
| Value (v : JsValue)
| Object (o : ObjectLiteral).

(** [this.session] as a field value: [ClientSession | undefined]. *)
Definition session_value (s : option ClientSession) : JsValue :=
  match s with
  | Some h => JsSession h
  | None => undefined
  end.

(** [{ ...options, session: this.session }]: spreading [undefined] yields
    the empty object; the [session] key is then written, overriding a
    caller-supplied one. *)
Definition spread_session (options : option ObjectLiteral)
    (s : option ClientSession) : Arg :=
  Object (<["session" := session_value s]> (default ∅ options)).

(** An optional options object passed along as it is. *)
Definition verbatim (options : option ObjectLiteral) : Arg :=
  match options with
  | Some o => Object o
  | None => Value undefined
  end.

(** The session a positional argument carries, if it is an object whose
    [session] field holds one. *)
Definition arg_session (a : Arg) : option ClientSession :=
  match a with
  | Object o =>
      match o !! "session" with
      | Some (JsSession h) => Some h
      | _ => None
      end
  | Value _ => None
  end.

(** ** Calls to the collaborators *)

(** A collection handle: [databaseConnection.db(database).collection(name)].
    [database] is [connection.driver.database], which may be absent. *)
Record Collection := mkCollection {
  collection_database : option string;
  collection_name : string
}.

Inductive Call :=
| Broadcast (event : string)
| StartSession
| SessionCall (s : ClientSession) (method : string)
| LogQuery (query : string)
| DbCall (database : option string) (method : string) (args : list Arg)
| CollectionCall (c : Collection) (method : string) (args : list Arg).

(** The sessions carried by the arguments of a call. *)
Definition call_sessions (c : Call) : list ClientSession :=
  match c with
  | DbCall _ _ args | CollectionCall _ _ args => omap arg_session args
  | _ => []
  end.

(** The behaviour of the collaborators during one method invocation: which
    calls fail and with what, the handle [startSession] hands out, and what
    a successful client call returns.  No method invocation issues the same
    call twice, so a function of the call is fully general.

    [deferred] tells how a failing call delivers its failure: by throwing,
    or later, through the promise (or callback) of the call.  The two
    differ only where the runner does not await the call, which is the case
    of [endSession] alone; where it awaits, both reach the same [catch]. *)
Record World := mkWorld {
  fails : Call -> option Error;
  newSession : ClientSession;
  reply : Call -> JsValue;
  deferred : Call -> bool
}.

(** ** The runner *)

Record MongoConnectionOptions := mkOptions {
  enableTransactions : bool
}.

Record DataSource := mkDataSource {
  connection_options : MongoConnectionOptions;
  driver_database : option string
}.

Record MongoQueryRunner := mkRunner {
  connection : DataSource;
  isReleased : bool;
  isTransactionActive : bool;
  session : option ClientSession
}.

(** The constructor leaves the field initialisers in force:
    [isReleased = false], [isTransactionActive = false], no session. *)
Definition constructor (conn : DataSource) : MongoQueryRunner :=
  {| connection := conn;
     isReleased := false;
     isTransactionActive := false;
     session := None |}.

(** [protected get options()] *)
Definition options (r : MongoQueryRunner) : MongoConnectionOptions :=
  connection_options (connection r).

(** ** The monad *)

(** A promise, observed once the computation behind it has run. *)
Inductive Promise (A : Type) :=
| Fulfilled (a : A)
| Rejected (e : Error)
| Unsettled.
Arguments Fulfilled {A} a.
Arguments Rejected {A} e.
Arguments Unsettled {A}.

(** How a piece of code completes: normally, by a synchronous throw, or
    not at all (it awaits a promise that nobody settles). *)
Inductive Completion (A : Type) :=
| Normal (a : A)
| Throw (e : Error)
| Stuck.
Arguments Normal {A} a.
Arguments Throw {A} e.
Arguments Stuck {A}.

(** The machine: the runner ([this]), the calls made so far in program
    order, and the promise under construction by [new Promise(...)] that
    [ok] and [fail] settle. *)
Record Machine := mkMachine {
  this : MongoQueryRunner;
  calls : list Call;
  executor_promise : Promise unit
}.

Definition M (A : Type) : Type := Machine -> Completion A * Machine.

Definition ret {A} (a : A) : M A := fun m => (Normal a, m).

Definition bind {A B} (c : M A) (k : A -> M B) : M B :=
  fun m =>
    match c m with
    | (Normal a, m') => k a m'
    | (Throw e, m') => (Throw e, m')
    | (Stuck, m') => (Stuck, m')
    end.

Definition throw {A} (e : Error) : M A := fun m => (Throw e, m).

(** [try { body } catch (e) { handler }] *)
Definition try_catch {A} (body : M A) (handler : Error -> M A) : M A :=
  fun m =>
    match body m with
    | (Throw e, m') => handler e m'
    | r => r
    end.

Declare Scope js_scope.
Delimit Scope js_scope with js.
Notation "x <- c ;; k" := (bind c (fun x => k))
  (at level 100, c at next level, right associativity) : js_scope.
Notation "c ;; k" := (bind c (fun _ => k))
  (at level 100, right associativity) : js_scope.
Local Open Scope js_scope.

(** Reading and writing the fields of [this]. *)
Definition get_this : M MongoQueryRunner := fun m => (Normal (this m), m).

Definition set_isTransactionActive (b : bool) : M unit :=
  fun m =>
    (Normal tt,
     {| this := {| connection := connection (this m);
                   isReleased := isReleased (this m);
                   isTransactionActive := b;
                   session := session (this m) |};
        calls := calls m;
        executor_promise := executor_promise m |}).

Definition set_session (s : option ClientSession) : M unit :=
  fun m =>
    (Normal tt,
     {| this := {| connection := connection (this m);
                   isReleased := isReleased (this m);
                   isTransactionActive := isTransactionActive (this m);
                   session := s |};
        calls := calls m;
        executor_promise := executor_promise m |}).

(** An [async] function never throws to its caller: it returns a promise
    that carries the completion of its body. *)
Definition async {A} (body : M A) : M (Promise A) :=
  fun m =>
    match body m with
    | (Normal a, m') => (Normal (Fulfilled a), m')
    | (Throw e, m') => (Normal (Rejected e), m')
    | (Stuck, m') => (Normal Unsettled, m')
    end.

(** [await p] *)
Definition await {A} (p : Promise A) : M A :=
  match p with
  | Fulfilled a => ret a
  | Rejected e => throw e
  | Unsettled => fun m => (Stuck, m)
  end.

(** [new Promise(async (ok, fail) => { executor })]: the executor runs at
    once; the promise is whatever [ok] or [fail] made of it, and the
    executor's own completion is dropped. *)
Definition new_Promise (executor : M unit) : M (Promise unit) :=
  fun m =>
    let saved := executor_promise m in
    let m1 := snd (async executor
                     {| this := this m; calls := calls m;
                        executor_promise := Unsettled |}) in
    (Normal (executor_promise m1),
     {| this := this m1; calls := calls m1; executor_promise := saved |}).

Definition settle (p : Promise unit) : M unit :=
  fun m =>
    (Normal tt,
     match executor_promise m with
     | Unsettled =>
         {| this := this m; calls := calls m; executor_promise := p |}
     | _ => m
     end).

(** [ok()] and [fail(e)]: settling a settled promise does nothing. *)
Definition ok : M unit := settle (Fulfilled tt).
Definition fail (e : Error) : M unit := settle (Rejected e).

(** Running a method on a runner: no calls made yet; the result is the
    completion, the runner afterwards and the calls in program order. *)
Definition run {A} (c : M A) (r : MongoQueryRunner)
    : Completion A * MongoQueryRunner * list Call :=
  let '(res, m) := c {| this := r; calls := []; executor_promise := Unsettled |} in
  (res, this m, calls m).

Section Collaborators.

Variable W : World.

(** A synchronous call to a collaborator: recorded, then it throws or
    returns. *)
Definition call (c : Call) : M JsValue :=
  fun m =>
    let m' := {| this := this m; calls := calls m ++ [c];
                 executor_promise := executor_promise m |} in
    match fails W c with
    | Some e => (Throw e, m')
    | None => (Normal (reply W c), m')
    end.

(** A call that returns a promise. *)
Definition call_async (c : Call) : M (Promise JsValue) := async (call c).

(** [this.broadcaster.broadcast(event)] returns a promise. *)
Definition broadcast (event : string) : M (Promise JsValue) :=
  call_async (Broadcast event).

(** [this.connection.logger.logQuery(query)] *)
Definition logQuery (query : string) : M unit :=
  call (LogQuery query);; ret tt.

(** [this.databaseConnection.startSession()] *)
Definition startSession : M ClientSession :=
  call StartSession;; ret (newSession W).

(** [this.getCollection(collectionName)] *)
Definition getCollection (collectionName : string) : M Collection :=
  r <- get_this;;
  ret (mkCollection (driver_database (connection r)) collectionName).

(** *** Pass-through operations *)

(** [{ ...options, session: this.session }] *)
Definition with_session (options : option ObjectLiteral) : M Arg :=
  r <- get_this;; ret (spread_session options (session r)).

(** [this.getCollection(collectionName).method(args)] for a client
    method that returns its result directly. *)
Definition collection_call (collectionName method : string)
    (args : list Arg) : M JsValue :=
  c <- getCollection collectionName;;
  call (CollectionCall c method args).

(** [await this.getCollection(collectionName).method(args)] *)
Definition collection_await (collectionName method : string)
    (args : list Arg) : M JsValue :=
  c <- getCollection collectionName;;
  p <- call_async (CollectionCall c method args);;
  await p.

Definition cursor (collectionName : string) (query : option ObjectLiteral)
    : M JsValue :=
  collection_call collectionName "find" [Object (default ∅ query)].

Definition aggregate (collectionName : string) (pipeline : JsValue)
    (options : option ObjectLiteral) : M JsValue :=
  o <- with_session options;;
  collection_call collectionName "aggregate" [Value pipeline; o].

Definition bulkWrite (collectionName : string) (operations : JsValue)
    (options : option ObjectLiteral) : M (Promise JsValue) :=
  async (
    o <- with_session options;;
    collection_await collectionName "bulkWrite" [Value operations; o]).

Definition count (collectionName : string) (query : option ObjectLiteral)
    (options : option ObjectLiteral) : M (Promise JsValue) :=
  async (
    o <- with_session options;;
    collection_await collectionName "countDocuments"
      [Object (default ∅ query); o]).

Definition createCollectionIndex (collectionName : string)
    (fieldOrSpec : JsValue) (options : option ObjectLiteral)
    : M (Promise JsValue) :=
  async (
    o <- with_session options;;
    collection_await collectionName "createIndex" [Value fieldOrSpec; o]).

Definition createCollectionIndexes (collectionName : string)
    (indexSpecs : JsValue) : M (Promise JsValue) :=
  async (
    collection_await collectionName "createIndexes" [Value indexSpecs]).

Definition deleteMany (collectionName : string) (query : ObjectLiteral)
    (options : option ObjectLiteral) : M (Promise JsValue) :=
  async (
    o <- with_session options;;
    collection_await collectionName "deleteMany" [Object query; o]).

Definition deleteOne (collectionName : string) (query : ObjectLiteral)
    (options : option ObjectLiteral) : M (Promise JsValue) :=
  async (
    o <- with_session options;;
    collection_await collectionName "deleteOne" [Object query; o]).

Definition distinct (collectionName : string) (key : string)
    (query : ObjectLiteral) (options : option ObjectLiteral)
    : M (Promise JsValue) :=
  async (
    o <- with_session options;;
    collection_await collectionName "distinct"
      [Value (JsString key); Object query; o]).

Definition dropCollectionIndex (collectionName : string)
    (indexName : string) (options : option ObjectLiteral)
    : M (Promise JsValue) :=
  async (
    o <- with_session options;;
    collection_await collectionName "dropIndex"
      [Value (JsString indexName); o]).

Definition dropCollectionIndexes (collectionName : string)
    : M (Promise JsValue) :=
  async (collection_await collectionName "dropIndexes" []).

Definition findOneAndDelete (collectionName : string)
    (query : ObjectLiteral) (options : option ObjectLiteral)
    : M (Promise JsValue) :=
  async (
    o <- with_session options;;
    collection_await collectionName "findOneAndDelete" [Object query; o]).

Definition findOneAndReplace (collectionName : string)
    (query : ObjectLiteral) (replacement : ObjectLiteral)
    (options : option ObjectLiteral) : M (Promise JsValue) :=
  async (
    o <- with_session options;;
    collection_await collectionName "findOneAndReplace"
      [Object query; Object replacement; o]).

Definition findOneAndUpdate (collectionName : string)
    (query : ObjectLiteral) (update : ObjectLiteral)
    (options : option ObjectLiteral) : M (Promise JsValue) :=
  async (
    o <- with_session options;;
    collection_await collectionName "findOneAndUpdate"
      [Object query; Object update; o]).

Definition geoHaystackSearch (collectionName : string) (x y : JsValue)
    (options : option ObjectLiteral) : M (Promise JsValue) :=
  async (
    collection_await collectionName "geoHaystackSearch"
      [Value x; Value y; verbatim options]).

Definition geoNear (collectionName : string) (x y : JsValue)
    (options : option ObjectLiteral) : M (Promise JsValue) :=
  async (
    collection_await collectionName "geoNear"
      [Value x; Value y; verbatim options]).

Definition group (collectionName : string) (keys : JsValue)
    (condition initial : ObjectLiteral) (reduce finalize command : JsValue)
    (options : option ObjectLiteral) : M (Promise JsValue) :=
  async (
    o <- with_session options;;
    collection_await collectionName "group"
      [Value keys; Object condition; Object initial; Value reduce;
       Value finalize; Value command; o]).

Definition collectionIndexes (collectionName : string)
    : M (Promise JsValue) :=
  async (collection_await collectionName "indexes" []).

Definition collectionIndexExists (collectionName : string)
    (indexes : JsValue) : M (Promise JsValue) :=
  async (collection_await collectionName "indexExists" [Value indexes]).

Definition collectionIndexInformation (collectionName : string)
    (options : option ObjectLiteral) : M (Promise JsValue) :=
  async (
    collection_await collectionName "indexInformation" [verbatim options]).

Definition initializeOrderedBulkOp (collectionName : string)
    (options : option ObjectLiteral) : M JsValue :=
  o <- with_session options;;
  collection_call collectionName "initializeOrderedBulkOp" [o].

Definition initializeUnorderedBulkOp (collectionName : string)
    (options : option ObjectLiteral) : M JsValue :=
  o <- with_session options;;
  collection_call collectionName "initializeUnorderedBulkOp" [o].

Definition insertMany (collectionName : string) (docs : JsValue)
    (options : option ObjectLiteral) : M (Promise JsValue) :=
  async (
    o <- with_session options;;
    collection_await collectionName "insertMany" [Value docs; o]).

Definition insertOne (collectionName : string) (doc : ObjectLiteral)
    (options : option ObjectLiteral) : M (Promise JsValue) :=
  async (
    o <- with_session options;;
    collection_await collectionName "insertOne" [Object doc; o]).

Definition isCapped (collectionName : string) : M (Promise JsValue) :=
  async (collection_await collectionName "isCapped" []).

Definition listCollectionIndexes (collectionName : string)
    (options : option ObjectLiteral) : M JsValue :=
  o <- with_session options;;
  collection_call collectionName "listIndexes" [o].

Definition mapReduce (collectionName : string) (map reduce : JsValue)
    (options : option ObjectLiteral) : M (Promise JsValue) :=
  async (
    o <- with_session options;;
    collection_await collectionName "mapReduce"
      [Value map; Value reduce; o]).

Definition parallelCollectionScan (collectionName : string)
    (options : option ObjectLiteral) : M (Promise JsValue) :=
  async (
    o <- with_session options;;
    collection_await collectionName "parallelCollectionScan" [o]).

Definition reIndex (collectionName : string) : M (Promise JsValue) :=
  async (collection_await collectionName "reIndex" []).

Definition rename (collectionName : string) (newName : string)
    (options : option ObjectLiteral) : M (Promise JsValue) :=
  async (
    collection_await collectionName "rename"
      [Value (JsString newName); verbatim options]).

Definition replaceOne (collectionName : string) (query doc : ObjectLiteral)
    (options : option ObjectLiteral) : M (Promise JsValue) :=
  async (
    o <- with_session options;;
    collection_await collectionName "replaceOne"
      [Object query; Object doc; o]).

Definition stats (collectionName : string)
    (options : option ObjectLiteral) : M (Promise JsValue) :=
  async (collection_await collectionName "stats" [verbatim options]).

Definition watch (collectionName : string) (pipeline : JsValue)
    (options : option ObjectLiteral) : M JsValue :=
  o <- with_session options;;
  collection_call collectionName "watch" [Value pipeline; o].

Definition updateMany (collectionName : string)
    (query update : ObjectLiteral) (options : option ObjectLiteral)
    : M (Promise JsValue) :=
  async (
    o <- with_session options;;
    collection_await collectionName "updateMany"
      [Object query; Object update; o]).

Definition updateOne (collectionName : string)
    (query update : ObjectLiteral) (options : option ObjectLiteral)
    : M (Promise JsValue) :=
  async (
    o <- with_session options;;
    collection_await collectionName "updateOne"
      [Object query; Object update; o]).

(** *** Destructive whole-store operations *)

(** [await this.databaseConnection.db(database).method(args)] *)
Definition db_await (method : string) (args : list Arg) : M JsValue :=
  r <- get_this;;
  p <- call_async (DbCall (driver_database (connection r)) method args);;
  await p.

Definition clearDatabase : M (Promise unit) :=
  async (db_await "dropDatabase" [];; ret tt).

Definition clearTable (collectionName : string) : M (Promise unit) :=
  async (
    db_await "dropCollection" [Value (JsString collectionName)];; ret tt).

(** *** Transactions *)

Definition startTransaction : M (Promise unit) :=
  async (
    r <- get_this;;
    if negb (enableTransactions (options r)) then ret tt else
    set_isTransactionActive true;;
    try_catch
      (p <- broadcast "BeforeTransactionStart";; await p;; ret tt)
      (fun err => set_isTransactionActive false;; throw err);;
    p <- new_Promise (
      try_catch
        (s <- startSession;;
         set_session (Some s);;
         call (SessionCall s "startTransaction");;
         logQuery "BEGIN TRANSACTION";;
         ok)
        (fun e => fail e));;
    await p;;
    p <- broadcast "AfterTransactionStart";; await p;;
    ret tt).

(** [await this.session?.method()] *)
Definition await_session_opt (method : string) : M unit :=
  r <- get_this;;
  match session r with
  | Some s => p <- call_async (SessionCall s method);; await p;; ret tt
  | None => ret tt
  end.

(** A call whose outcome is not awaited: it is recorded; a failure it
    throws reaches the caller, a failure it delivers later is lost with
    the promise nobody looks at. *)
Definition call_unawaited (c : Call) : M unit :=
  fun m =>
    let m' := {| this := this m; calls := calls m ++ [c];
                 executor_promise := executor_promise m |} in
    match fails W c with
    | Some e => if deferred W c then (Normal tt, m') else (Throw e, m')
    | None => (Normal tt, m')
    end.

(** [this.session?.method()], not awaited *)
Definition session_opt (method : string) : M unit :=
  r <- get_this;;
  match session r with
  | Some s => call_unawaited (SessionCall s method)
  | None => ret tt
  end.

Definition commitTransaction : M (Promise unit) :=
  async (
    r <- get_this;;
    if negb (enableTransactions (options r)) then ret tt else
    r <- get_this;;
    if negb (isTransactionActive r) then throw TransactionNotStartedError else
    p <- broadcast "BeforeTransactionCommit";; await p;;
    p <- new_Promise (
      try_catch
        (await_session_opt "commitTransaction";;
         session_opt "endSession";;
         set_isTransactionActive false;;
         set_session None;;
         p <- broadcast "AfterTransactionCommit";; await p;;
         ok;;
         logQuery "COMMIT")
        (fun e => fail e));;
    await p).

Definition rollbackTransaction : M (Promise unit) :=
  async (
    r <- get_this;;
    if negb (enableTransactions (options r)) then ret tt else
    r <- get_this;;
    if negb (isTransactionActive r) then throw TransactionNotStartedError else
    p <- broadcast "BeforeTransactionRollback";; await p;;
    p <- new_Promise (
      try_catch
        (await_session_opt "abortTransaction";;
         session_opt "endSession";;
         set_isTransactionActive false;;
         set_session None;;
         p <- broadcast "AfterTransactionRollback";; await p;;
         ok;;
         logQuery "ROLLBACK")
        (fun e => fail e));;
    await p).

End Collaborators.

(** ** The pass-through operations as one family *)

(** An invocation of a pass-through method on a collection, with its
    arguments other than the collection name. *)
Inductive PassThrough :=
| Cursor (q : option ObjectLiteral)
| Aggregate (pipeline : JsValue) (o : option ObjectLiteral)
| BulkWrite (operations : JsValue) (o : option ObjectLiteral)
| Count (q : option ObjectLiteral) (o : option ObjectLiteral)
| CreateCollectionIndex (fieldOrSpec : JsValue) (o : option ObjectLiteral)
| CreateCollectionIndexes (indexSpecs : JsValue)
| DeleteMany (q : ObjectLiteral) (o : option ObjectLiteral)
| DeleteOne (q : ObjectLiteral) (o : option ObjectLiteral)
| Distinct (key : string) (q : ObjectLiteral) (o : option ObjectLiteral)
| DropCollectionIndex (indexName : string) (o : option ObjectLiteral)
| DropCollectionIndexes
| FindOneAndDelete (q : ObjectLiteral) (o : option ObjectLiteral)
| FindOneAndReplace (q replacement : ObjectLiteral) (o : option ObjectLiteral)
| FindOneAndUpdate (q update : ObjectLiteral) (o : option ObjectLiteral)
| GeoHaystackSearch (x y : JsValue) (o : option ObjectLiteral)
| GeoNear (x y : JsValue) (o : option ObjectLiteral)
| Group (keys : JsValue) (condition initial : ObjectLiteral)
    (reduce finalize command : JsValue) (o : option ObjectLiteral)
| CollectionIndexes
| CollectionIndexExists (indexes : JsValue)
| CollectionIndexInformation (o : option ObjectLiteral)
| InitializeOrderedBulkOp (o : option ObjectLiteral)
| InitializeUnorderedBulkOp (o : option ObjectLiteral)
| InsertMany (docs : JsValue) (o : option ObjectLiteral)
| InsertOne (doc : ObjectLiteral) (o : option ObjectLiteral)
| IsCapped
| ListCollectionIndexes (o : option ObjectLiteral)
| MapReduce (map reduce : JsValue) (o : option ObjectLiteral)
| ParallelCollectionScan (o : option ObjectLiteral)
| ReIndex
| Rename (newName : string) (o : option ObjectLiteral)
| ReplaceOne (q doc : ObjectLiteral) (o : option ObjectLiteral)
| Stats (o : option ObjectLiteral)
| Watch (pipeline : JsValue) (o : option ObjectLiteral)
| UpdateMany (q update : ObjectLiteral) (o : option ObjectLiteral)
| UpdateOne (q update : ObjectLiteral) (o : option ObjectLiteral).

(** The calls the method makes when invoked on collection [name]. *)
Definition client_calls (W : World) (name : string) (op : PassThrough)
    (r : MongoQueryRunner) : list Call :=
  match op with
  | Cursor q => snd (run (cursor W name q) r)
  | Aggregate p o => snd (run (aggregate W name p o) r)
  | BulkWrite ops o => snd (run (bulkWrite W name ops o) r)
  | Count q o => snd (run (count W name q o) r)
  | CreateCollectionIndex f o => snd (run (createCollectionIndex W name f o) r)
  | CreateCollectionIndexes s => snd (run (createCollectionIndexes W name s) r)
  | DeleteMany q o => snd (run (deleteMany W name q o) r)
  | DeleteOne q o => snd (run (deleteOne W name q o) r)
  | Distinct k q o => snd (run (distinct W name k q o) r)
  | DropCollectionIndex i o => snd (run (dropCollectionIndex W name i o) r)
  | DropCollectionIndexes => snd (run (dropCollectionIndexes W name) r)
  | FindOneAndDelete q o => snd (run (findOneAndDelete W name q o) r)
  | FindOneAndReplace q d o => snd (run (findOneAndReplace W name q d o) r)
  | FindOneAndUpdate q u o => snd (run (findOneAndUpdate W name q u o) r)
  | GeoHaystackSearch x y o => snd (run (geoHaystackSearch W name x y o) r)
  | GeoNear x y o => snd (run (geoNear W name x y o) r)
  | Group k c i rd f cm o => snd (run (group W name k c i rd f cm o) r)
  | CollectionIndexes => snd (run (collectionIndexes W name) r)
  | CollectionIndexExists i => snd (run (collectionIndexExists W name i) r)
  | CollectionIndexInformation o =>
      snd (run (collectionIndexInformation W name o) r)
  | InitializeOrderedBulkOp o => snd (run (initializeOrderedBulkOp W name o) r)
  | InitializeUnorderedBulkOp o =>
      snd (run (initializeUnorderedBulkOp W name o) r)
  | InsertMany d o => snd (run (insertMany W name d o) r)
  | InsertOne d o => snd (run (insertOne W name d o) r)
  | IsCapped => snd (run (isCapped W name) r)
  | ListCollectionIndexes o => snd (run (listCollectionIndexes W name o) r)
  | MapReduce m rd o => snd (run (mapReduce W name m rd o) r)
  | ParallelCollectionScan o => snd (run (parallelCollectionScan W name o) r)
  | ReIndex => snd (run (reIndex W name) r)
  | Rename n o => snd (run (rename W name n o) r)
  | ReplaceOne q d o => snd (run (replaceOne W name q d o) r)
  | Stats o => snd (run (stats W name o) r)
  | Watch p o => snd (run (watch W name p o) r)
  | UpdateMany q u o => snd (run (updateMany W name q u o) r)
  | UpdateOne q u o => snd (run (updateOne W name q u o) r)
  end.

(** The methods whose body writes [session: this.session] into the options
    it hands to the client. *)
Definition injects_session (op : PassThrough) : bool :=
  match op with
  | Cursor _ | CreateCollectionIndexes _ | DropCollectionIndexes
  | GeoHaystackSearch _ _ _ | GeoNear _ _ _
  | CollectionIndexes | CollectionIndexExists _
  | CollectionIndexInformation _ | IsCapped | ReIndex
  | Rename _ _ | Stats _ => false
  | _ => true
  end.

(** The options object the caller supplied, for the methods that take one. *)
Definition caller_options (op : PassThrough) : option ObjectLiteral :=
  match op with
  | Cursor _ | CreateCollectionIndexes _ | DropCollectionIndexes
  | CollectionIndexes | CollectionIndexExists _ | IsCapped | ReIndex => None
  | Aggregate _ o | BulkWrite _ o | Count _ o | CreateCollectionIndex _ o
  | DeleteMany _ o | DeleteOne _ o | Distinct _ _ o | DropCollectionIndex _ o
  | FindOneAndDelete _ o | FindOneAndReplace _ _ o | FindOneAndUpdate _ _ o
  | GeoHaystackSearch _ _ o | GeoNear _ _ o | Group _ _ _ _ _ _ o
  | CollectionIndexInformation o | InitializeOrderedBulkOp o
  | InitializeUnorderedBulkOp o | InsertMany _ o | InsertOne _ o
  | ListCollectionIndexes o | MapReduce _ _ o | ParallelCollectionScan o
  | Rename _ o | ReplaceOne _ _ o | Stats o | Watch _ o | UpdateMany _ _ o
  | UpdateOne _ _ o => o
  end.

(** The session found in the last argument of a client call, where the
    client's methods take their options. *)
Definition forwarded_session (c : Call) : option ClientSession :=
  match c with
  | CollectionCall _ _ args | DbCall _ _ args => last args ≫= arg_session
  | _ => None
  end.

(** The runner with another session reference. *)
Definition with_session_ref (s : option ClientSession)
    (r : MongoQueryRunner) : MongoQueryRunner :=
  {| connection := connection r; isReleased := isReleased r;
     isTransactionActive := isTransactionActive r; session := s |}.

(** ** Operations the driver rejects *)

(** Every method of the runner whose body is a single
    [throw new TypeORMError(...)].  None of them looks at its arguments,
    which are left out. *)
Inductive Unsupported :=
| query | stream
| getDatabases | getSchemas | getTable | getTables | getView | getViews
| hasDatabase | getCurrentDatabase | hasSchema | getCurrentSchema
| hasTable | hasColumn
| createDatabase | dropDatabase | createSchema | dropSchema
| createTable | dropTable | createView | dropView | renameTable
| addColumn | addColumns | renameColumn | changeColumn | changeColumns
| dropColumn | dropColumns
| createPrimaryKey | updatePrimaryKeys | dropPrimaryKey
| createUniqueConstraint | createUniqueConstraints
| dropUniqueConstraint | dropUniqueConstraints
| createCheckConstraint | createCheckConstraints
| dropCheckConstraint | dropCheckConstraints
| createExclusionConstraint | createExclusionConstraints
| dropExclusionConstraint | dropExclusionConstraints
| createForeignKey | createForeignKeys | dropForeignKey | dropForeignKeys
| createIndex | createIndices | dropIndex | dropIndices
| enableSqlMemory | disableSqlMemory | clearSqlMemory | getMemorySql
| executeMemoryUpSql | executeMemoryDownSql.

(** The message each method passes to [TypeORMError]. *)
Definition message (op : Unsupported) : string :=
  match op with
  | query => "Executing SQL query is not supported by MongoDB driver."
  | stream => "Stream is not supported by MongoDB driver. Use watch instead."
  | hasDatabase | getCurrentDatabase =>
      "Check database queries are not supported by MongoDB driver."
  | hasSchema | getCurrentSchema | hasTable =>
      "Check schema queries are not supported by MongoDB driver."
  | createDatabase =>
      "Database create queries are not supported by MongoDB driver."
  | dropDatabase =>
      "Database drop queries are not supported by MongoDB driver."
  | createSchema =>
      "Schema create queries are not supported by MongoDB driver."
  | dropSchema =>
      "Schema drop queries are not supported by MongoDB driver."
  | enableSqlMemory | disableSqlMemory | clearSqlMemory | getMemorySql
  | executeMemoryUpSql | executeMemoryDownSql =>
      "This operation is not supported by MongoDB driver."
  | _ => "Schema update queries are not supported by MongoDB driver."
  end.

(** Whether the method is declared [async]. *)
Definition declared_async (op : Unsupported) : bool :=
  match op with
  | query | stream
  | enableSqlMemory | disableSqlMemory | clearSqlMemory | getMemorySql => false
  | _ => true
  end.

(** Calling the method: the body throws; an [async] method turns that into
    a rejected promise. *)
Definition unsupported (op : Unsupported) : M (Promise JsValue) :=
  if declared_async op
  then async (throw (TypeORMError (message op)))
  else throw (TypeORMError (message op)).

(** The operations that define, alter or remove a database, schema, table,
    view, column, key, constraint or index. *)
Definition schema_definition (op : Unsupported) : bool :=
  match op with
  | query | stream
  | getDatabases | getSchemas | getTable | getTables | getView | getViews
  | hasDatabase | getCurrentDatabase | hasSchema | getCurrentSchema
  | hasTable | hasColumn
  | enableSqlMemory | disableSqlMemory | clearSqlMemory | getMemorySql
  | executeMemoryUpSql | executeMemoryDownSql => false
  | _ => true
  end.

(** [contains needle haystack]: [needle] occurs in [haystack]. *)
Fixpoint contains (needle haystack : string) : bool :=
  String.prefix needle haystack ||
  match haystack with
  | EmptyString => false
  | String _ rest => contains needle rest
  end.

(** An outcome is a synchronous failure when the call itself throws. *)
Definition throws {A} (c : Completion A) : Prop := exists e, c = Throw e.

(** ** Sequences of transaction calls *)

Inductive TxMethod := Start | Commit | Rollback.

Definition tx (W : World) (op : TxMethod) : M (Promise unit) :=
  match op with
  | Start => startTransaction W
  | Commit => commitTransaction W
  | Rollback => rollbackTransaction W
  end.

(** The runner left behind by a call, whatever its outcome. *)
Definition after {A} (c : M A) (r : MongoQueryRunner) : MongoQueryRunner :=
  snd (fst (run c r)).

(** The states a runner built on [conn] can be in: the constructor's, and
    those left by any transaction call, failed or not, under any
    behaviour of the collaborators. *)
Inductive reachable (conn : DataSource) : MongoQueryRunner -> Prop :=
| reachable_new : reachable conn (constructor conn)
| reachable_tx W op r :
    reachable conn r -> reachable conn (after (tx W op) r).

(** The invariant of the data model: a session exists exactly when the
    transaction-active flag is set. *)
Definition session_iff_active (r : MongoQueryRunner) : Prop :=
  is_Some (session r) <-> isTransactionActive r = true.

(** What each transaction method is meant to establish when it succeeds. *)
Definition established (op : TxMethod) (r : MongoQueryRunner) : Prop :=
  match op with
  | Start => isTransactionActive r = true /\ is_Some (session r)
  | Commit | Rollback => isTransactionActive r = false /\ session r = None
  end.

(** ** Concrete collaborators and runners used in examples *)

Definition quiet : World :=
  {| fails := fun _ => None; newSession := 7; reply := fun _ => undefined;
     deferred := fun _ => false |}.

(** A world in which exactly the calls selected by [bad] fail. *)
Definition failing (bad : Call -> bool) : World :=
  {| fails := fun c => if bad c then Some (ExternalError 1) else None;
     newSession := 7;
     reply := fun _ => undefined;
     deferred := fun _ => false |}.

(** A world in which exactly the calls selected by [bad] fail, and deliver
    their failure late instead of throwing. *)
Definition failing_late (bad : Call -> bool) : World :=
  {| fails := fun c => if bad c then Some (ExternalError 1) else None;
     newSession := 7;
     reply := fun _ => undefined;
     deferred := fun _ => true |}.

Definition is_broadcast (event : string) (c : Call) : bool :=
  match c with
  | Broadcast ev => String.eqb ev event
  | _ => false
  end.

Definition is_startSession (c : Call) : bool :=
  match c with
  | StartSession => true
  | _ => false
  end.

Definition is_session_call (method : string) (c : Call) : bool :=
  match c with
  | SessionCall _ m => String.eqb m method
  | _ => false
  end.

Definition conn_on : DataSource :=
  {| connection_options := {| enableTransactions := true |};
     driver_database := Some "test" |}.

Definition conn_off : DataSource :=
  {| connection_options := {| enableTransactions := false |};
     driver_database := Some "test" |}.

(** The runner once a transaction has been started in a quiet world. *)
Definition started : MongoQueryRunner :=
  after (startTransaction quiet) (constructor conn_on).

(** ** The methods with nothing to do *)

(** [beforeMigration], [afterMigration], [connect] and [release] are
    [async] methods with an empty body. *)
Definition beforeMigration : M (Promise unit) := async (ret tt).
Definition afterMigration : M (Promise unit) := async (ret tt).
Definition connect : M (Promise unit) := async (ret tt).
Definition release : M (Promise unit) := async (ret tt).

(** [getReplicationMode()] *)
Definition getReplicationMode : M string := ret "master".

(** ** Every public method as one family *)

(** What a pass-through method hands back: the client's result itself, or
    a promise for it when the method is declared [async]. *)
Inductive Returned :=
| Direct (v : JsValue)
| Promised (p : Promise JsValue).

Definition direct (c : M JsValue) : M Returned := v <- c;; ret (Direct v).

Definition promised (c : M (Promise JsValue)) : M Returned :=
  p <- c;; ret (Promised p).

(** Invoking a pass-through method on collection [name]. *)
Definition pass_through (W : World) (name : string) (op : PassThrough)
    : M Returned :=
  match op with
  | Cursor q => direct (cursor W name q)
  | Aggregate p o => direct (aggregate W name p o)
  | BulkWrite ops o => promised (bulkWrite W name ops o)
  | Count q o => promised (count W name q o)
  | CreateCollectionIndex f o => promised (createCollectionIndex W name f o)
  | CreateCollectionIndexes s => promised (createCollectionIndexes W name s)
  | DeleteMany q o => promised (deleteMany W name q o)
  | DeleteOne q o => promised (deleteOne W name q o)
  | Distinct k q o => promised (distinct W name k q o)
  | DropCollectionIndex i o => promised (dropCollectionIndex W name i o)
  | DropCollectionIndexes => promised (dropCollectionIndexes W name)
  | FindOneAndDelete q o => promised (findOneAndDelete W name q o)
  | FindOneAndReplace q d o => promised (findOneAndReplace W name q d o)
  | FindOneAndUpdate q u o => promised (findOneAndUpdate W name q u o)
  | GeoHaystackSearch x y o => promised (geoHaystackSearch W name x y o)
  | GeoNear x y o => promised (geoNear W name x y o)
  | Group k c i rd f cm o => promised (group W name k c i rd f cm o)
  | CollectionIndexes => promised (collectionIndexes W name)
  | CollectionIndexExists i => promised (collectionIndexExists W name i)
  | CollectionIndexInformation o =>
      promised (collectionIndexInformation W name o)
  | InitializeOrderedBulkOp o => direct (initializeOrderedBulkOp W name o)
  | InitializeUnorderedBulkOp o => direct (initializeUnorderedBulkOp W name o)
  | InsertMany d o => promised (insertMany W name d o)
  | InsertOne d o => promised (insertOne W name d o)
  | IsCapped => promised (isCapped W name)
  | ListCollectionIndexes o => direct (listCollectionIndexes W name o)
  | MapReduce m rd o => promised (mapReduce W name m rd o)
  | ParallelCollectionScan o => promised (parallelCollectionScan W name o)
  | ReIndex => promised (reIndex W name)
  | Rename n o => promised (rename W name n o)
  | ReplaceOne q d o => promised (replaceOne W name q d o)
  | Stats o => promised (stats W name o)
  | Watch p o => direct (watch W name p o)
  | UpdateMany q u o => promised (updateMany W name q u o)
  | UpdateOne q u o => promised (updateOne W name q u o)
  end.

(** The pass-through methods that are not declared [async]. *)
Definition returns_directly (op : PassThrough) : bool :=
  match op with
  | Cursor _ | Aggregate _ _ | InitializeOrderedBulkOp _
  | InitializeUnorderedBulkOp _ | ListCollectionIndexes _ | Watch _ _ => true
  | _ => false
  end.

(** What the caller gets when the one client call is answered by
    [answer] ([None]: it succeeded with [v]; [Some e]: it failed). *)
Definition handed_back (op : PassThrough) (answer : option Error)
    (v : JsValue) : Completion Returned :=
  match answer with
  | None =>
      Normal (if returns_directly op then Direct v
              else Promised (Fulfilled v))
  | Some e =>
      if returns_directly op then Throw e
      else Normal (Promised (Rejected e))
  end.

(** An invocation of any public method of the runner. *)
Inductive Invocation :=
| Transaction (op : TxMethod)
| Operation (name : string) (op : PassThrough)
| Rejection (op : Unsupported)
| ClearDatabase
| ClearTable (name : string)
| Connect
| Release
| BeforeMigration
| AfterMigration
| GetReplicationMode.

(** The runner and the calls an invocation leaves behind. *)
Definition effect {A} (c : M A) (r : MongoQueryRunner)
    : MongoQueryRunner * list Call :=
  (after c r, snd (run c r)).

Definition invoke (W : World) (i : Invocation) (r : MongoQueryRunner)
    : MongoQueryRunner * list Call :=
  match i with
  | Transaction op => effect (tx W op) r
  | Operation name op => effect (pass_through W name op) r
  | Rejection op => effect (unsupported op) r
  | ClearDatabase => effect (clearDatabase W) r
  | ClearTable name => effect (clearTable W name) r
  | Connect => effect connect r
  | Release => effect release r
  | BeforeMigration => effect beforeMigration r
  | AfterMigration => effect afterMigration r
  | GetReplicationMode => effect getReplicationMode r
  end.

Definition is_transaction (i : Invocation) : bool :=
  match i with
  | Transaction _ => true
  | _ => false
  end.

(** The states a runner built on [conn] can be in after any sequence of
    invocations of its public methods, under any behaviour of the
    collaborators. *)
Inductive reachable_by_any (conn : DataSource) : MongoQueryRunner -> Prop :=
| reachable_by_any_new : reachable_by_any conn (constructor conn)
| reachable_by_any_step W i r :
    reachable_by_any conn r -> reachable_by_any conn (fst (invoke W i r)).

(** Collaborators none of whose calls fail. *)
Definition obliging (W : World) : Prop := forall c, fails W c = None.

(** The runner with no transaction: flag cleared, session dropped. *)
Definition idle (r : MongoQueryRunner) : MongoQueryRunner :=
  {| connection := connection r; isReleased := isReleased r;
     isTransactionActive := false; session := None |}.

(** The runner with a transaction on session [s]. *)
Definition active_on (s : ClientSession) (r : MongoQueryRunner)
    : MongoQueryRunner :=
  {| connection := connection r; isReleased := isReleased r;
     isTransactionActive := true; session := Some s |}.

(** A call on session [s]. *)
Definition on_session (s : ClientSession) (c : Call) : bool :=
  match c with
  | SessionCall s' _ => Nat.eqb s' s
  | _ => false
  end.

(** Selects the calls to the logger. *)
Definition is_logQuery (c : Call) : bool :=
  match c with
  | LogQuery _ => true
  | _ => false
  end.

(** The names each transaction method uses: its notifications, the session
    method it calls and the line it logs. *)
Definition before_event (op : TxMethod) : string :=
  match op with
  | Start => "BeforeTransactionStart"
  | Commit => "BeforeTransactionCommit"
  | Rollback => "BeforeTransactionRollback"
  end.

Definition after_event (op : TxMethod) : string :=
  match op with
  | Start => "AfterTransactionStart"
  | Commit => "AfterTransactionCommit"
  | Rollback => "AfterTransactionRollback"
  end.

Definition session_method (op : TxMethod) : string :=
  match op with
  | Start => "startTransaction"
  | Commit => "commitTransaction"
  | Rollback => "abortTransaction"
  end.

Definition logged (op : TxMethod) : string :=
  match op with
  | Start => "BEGIN TRANSACTION"
  | Commit => "COMMIT"
  | Rollback => "ROLLBACK"
  end.

(** The calls a transaction method is entitled to make on a runner: its
    notifications and log line, [startSession], and calls on the session
    the runner holds or, for [Start], on the one just created. *)
Definition own_call (W : World) (op : TxMethod) (r : MongoQueryRunner)
    (c : Call) : Prop :=
  match c with
  | Broadcast _ | LogQuery _ => True
  | StartSession => op = Start
  | SessionCall s _ =>
      match op with
      | Start => s = newSession W
      | _ => session r = Some s
      end
  | DbCall _ _ _ | CollectionCall _ _ _ => False
  end.

(** ** Transaction lifecycle *)

(** Unfold a transaction method down to the matches on the collaborators'
    answers. *)
Ltac exec :=
  unfold after, run, tx, startTransaction, commitTransaction,
    rollbackTransaction, await_session_opt, session_opt, broadcast,
    logQuery, startSession, call_async, options in *;
  unfold new_Promise, async, await, try_catch, bind, ok, fail, settle, throw,
    ret, call, call_unawaited, get_this, set_isTransactionActive,
    set_session in *;
  cbn in *.

(** Case analysis on the outcome of every collaborator call in the goal. *)
Ltac split_world :=
  repeat match goal with
         | |- context [fails ?W ?c] => destruct (fails W c) eqn:?; cbn
         | |- context [deferred ?W ?c] => destruct (deferred W c) eqn:?; cbn
         end.

Lemma started_eq :
  started = {| connection := conn_on; isReleased := false;
               isTransactionActive := true; session := Some 7 |}.
Proof. reflexivity. Qed.

Lemma started_reachable : reachable conn_on started.
Proof. apply (reachable_tx conn_on quiet Start), reachable_new. Qed.

(** With transactions disabled the three methods return at their first
    line. *)
Lemma tx_disabled W op r :
  enableTransactions (options r) = false ->
  run (tx W op) r = (Normal (Fulfilled tt), r, []).
Proof.
  intros Hoff. destruct op; exec.
  all: rewrite Hoff; reflexivity.
Qed.

(** [connection] is never assigned. *)
Lemma after_tx_connection W op r :
  connection (after (tx W op) r) = connection r.
Proof.
  destruct r as [conn rel act ses].
  destruct op; exec.
  all: destruct (enableTransactions (connection_options conn)); cbn;
    try reflexivity.
  - split_world; reflexivity.
  - destruct act; cbn; [|reflexivity].
    split_world; destruct ses; cbn; split_world; reflexivity.
  - destruct act; cbn; [|reflexivity].
    split_world; destruct ses; cbn; split_world; reflexivity.
Qed.

(** With transactions enabled, a call that fulfils its promise leaves the
    runner in the state its method is meant to establish, whatever state it
    was called in. *)
Lemma start_success_enabled W r r' tr :
  enableTransactions (options r) = true ->
  run (startTransaction W) r = (Normal (Fulfilled tt), r', tr) ->
  isTransactionActive r' = true /\ session r' = Some (newSession W).
Proof.
  intros Hon Hrun. exec. rewrite Hon in Hrun. cbn in Hrun.
  revert Hrun. split_world; intros Hrun; inversion Hrun; subst; cbn; auto.
Qed.

Lemma commit_success_enabled W r r' tr :
  enableTransactions (options r) = true ->
  run (commitTransaction W) r = (Normal (Fulfilled tt), r', tr) ->
  isTransactionActive r' = false /\ session r' = None.
Proof.
  destruct r as [conn rel act ses]. intros Hon Hrun. exec.
  rewrite Hon in Hrun. destruct act; cbn in Hrun; [|discriminate].
  revert Hrun. split_world; destruct ses; cbn; split_world;
    intros Hrun; inversion Hrun; subst; cbn; auto.
Qed.

Lemma rollback_success_enabled W r r' tr :
  enableTransactions (options r) = true ->
  run (rollbackTransaction W) r = (Normal (Fulfilled tt), r', tr) ->
  isTransactionActive r' = false /\ session r' = None.
Proof.
  destruct r as [conn rel act ses]. intros Hon Hrun. exec.
  rewrite Hon in Hrun. destruct act; cbn in Hrun; [|discriminate].
  revert Hrun. split_world; destruct ses; cbn; split_world;
    intros Hrun; inversion Hrun; subst; cbn; auto.
Qed.

(** A runner whose connection has transactions disabled never leaves the
    constructor's state. *)
Lemma reachable_connection conn r : reachable conn r -> connection r = conn.
Proof.
  induction 1 as [|W op r _ IH]; [reflexivity|].
  rewrite after_tx_connection. exact IH.
Qed.

Lemma reachable_disabled conn r :
  enableTransactions (connection_options conn) = false ->
  reachable conn r -> r = constructor conn.
Proof.
  intros Hoff. induction 1 as [|W op r Hr IH]; [reflexivity|].
  subst r. unfold after. rewrite tx_disabled; [reflexivity|exact Hoff].
Qed.

(** X11.  Calls that succeed keep the invariant. *)
Lemma success_keeps_invariant W op r r' tr :
  session_iff_active r ->
  run (tx W op) r = (Normal (Fulfilled tt), r', tr) ->
  session_iff_active r'.
Proof.
  intros Hinv Hrun.
  destruct (enableTransactions (options r)) eqn:Hcfg.
  - assert (established op r') as Hpost.
    { destruct op; cbn.
      + destruct (start_success_enabled W r r' tr Hcfg Hrun) as [-> ->]; eauto.
      + exact (commit_success_enabled W r r' tr Hcfg Hrun).
      + exact (rollback_success_enabled W r r' tr Hcfg Hrun). }
    unfold session_iff_active.
    destruct op; cbn in Hpost; destruct Hpost as [-> Hs]; try rewrite Hs;
      split; intros H; try done; by destruct H.
  - rewrite (tx_disabled W op r Hcfg) in Hrun. by inversion Hrun; subst.
Qed.

(** C3 (the code departs from the invariant).  The claim: in every
    reachable state, failed steps included, a session exists iff
    [isTransactionActive] is true.  On a fresh runner with transactions
    enabled, a [startTransaction] whose [startSession] call throws rejects
    and leaves the flag set with no session: a reachable state outside the
    invariant. *)
Theorem start_session_failure_breaks_invariant :
  let W := failing is_startSession in
  let r := after (startTransaction W) (constructor conn_on) in
  run (startTransaction W) (constructor conn_on)
    = (Normal (Rejected (ExternalError 1)), r,
       [Broadcast "BeforeTransactionStart"; StartSession]) /\
  reachable conn_on r /\
  isTransactionActive r = true /\ session r = None /\
  ~ session_iff_active r.
Proof.
  cbn zeta. split; [reflexivity|]. split.
  - apply (reachable_tx conn_on _ Start), reachable_new.
  - split; [reflexivity|]. split; [reflexivity|].
    intros [_ H]. destruct (H eq_refl) as [s Hs]. discriminate Hs.
Qed.

(** C4.  With transactions enabled and the flag false, [commitTransaction]
    and [rollbackTransaction] both reject with [TransactionNotStartedError];
    with transactions disabled both fulfil.  In either configuration the
    runner (flag and session included) is unchanged and no collaborator is
    called. *)
Theorem commit_rollback_without_start W r :
  isTransactionActive r = false ->
  let outcome :=
    if enableTransactions (options r)
    then Rejected TransactionNotStartedError
    else Fulfilled tt in
  run (commitTransaction W) r = (Normal outcome, r, []) /\
  run (rollbackTransaction W) r = (Normal outcome, r, []).
Proof.
  intros Hidle. cbn zeta.
  destruct (enableTransactions (options r)) eqn:Hcfg.
  - split; exec; rewrite Hcfg; cbn; rewrite Hidle; reflexivity.
  - split.
    + exact (tx_disabled W Commit r Hcfg).
    + exact (tx_disabled W Rollback r Hcfg).
Qed.

Lemma commit_rollback_without_start_enabled :
  isTransactionActive (constructor conn_on) = false /\
  run (commitTransaction quiet) (constructor conn_on)
    = (Normal (Rejected TransactionNotStartedError), constructor conn_on, []) /\
  run (rollbackTransaction quiet) (constructor conn_on)
    = (Normal (Rejected TransactionNotStartedError), constructor conn_on, []).
Proof.
  split; [reflexivity|].
  apply (commit_rollback_without_start quiet (constructor conn_on)).
  reflexivity.
Defined.

(** C5 as stated fails: on a runner with an active transaction (reachable
    by one successful start), a second [startTransaction] whose "before
    start" notification fails clears the flag, so the runner is not the
    one before the call. *)
Lemma start_before_failure_not_always_restoring :
  ~ (forall W r e,
       reachable (connection r) r ->
       enableTransactions (options r) = true ->
       fails W (Broadcast "BeforeTransactionStart") = Some e ->
       after (startTransaction W) r = r).
Proof.
  intros H.
  specialize (H (failing (is_broadcast "BeforeTransactionStart")) started
                (ExternalError 1) started_reachable eq_refl eq_refl).
  discriminate H.
Qed.

(** C5 (amended).  If the "before start" notification fails,
    [startTransaction] rejects with the notification's failure, the flag is
    false afterwards, the session reference is the one before the call and
    no call other than the notification is made (no session is created).
    The runner is exactly the one before the call whenever the flag was
    false before the call. *)
Theorem start_before_notification_failure W r e :
  enableTransactions (options r) = true ->
  fails W (Broadcast "BeforeTransactionStart") = Some e ->
  let r' := {| connection := connection r; isReleased := isReleased r;
               isTransactionActive := false; session := session r |} in
  run (startTransaction W) r
    = (Normal (Rejected e), r', [Broadcast "BeforeTransactionStart"]) /\
  (isTransactionActive r = false -> r' = r).
Proof.
  intros Hon Hfail. cbn zeta. split.
  - exec. rewrite Hon. cbn. rewrite Hfail. reflexivity.
  - destruct r; cbn. intros ->. reflexivity.
Qed.

Lemma start_before_notification_failure_fresh :
  let W := failing (is_broadcast "BeforeTransactionStart") in
  enableTransactions (options (constructor conn_on)) = true /\
  fails W (Broadcast "BeforeTransactionStart") = Some (ExternalError 1) /\
  run (startTransaction W) (constructor conn_on)
    = (Normal (Rejected (ExternalError 1)), constructor conn_on,
       [Broadcast "BeforeTransactionStart"]).
Proof.
  cbn zeta. split; [reflexivity|]. split; [reflexivity|].
  apply (start_before_notification_failure
           (failing (is_broadcast "BeforeTransactionStart"))
           (constructor conn_on) (ExternalError 1)); reflexivity.
Defined.

(** C6.  A [startTransaction] that succeeds with transactions enabled
    leaves the flag true and a session defined; a [commitTransaction] or
    [rollbackTransaction] that succeeds leaves the flag false and the
    session undefined.  This holds in every reachable state. *)
Theorem success_establishes W op r r' tr :
  reachable (connection r) r ->
  (op = Start -> enableTransactions (options r) = true) ->
  run (tx W op) r = (Normal (Fulfilled tt), r', tr) ->
  established op r'.
Proof.
  intros Hreach Hstart Hrun.
  destruct (enableTransactions (options r)) eqn:Hcfg.
  - destruct op; cbn in *.
    + destruct (start_success_enabled W r r' tr Hcfg Hrun) as [-> ->]; eauto.
    + exact (commit_success_enabled W r r' tr Hcfg Hrun).
    + exact (rollback_success_enabled W r r' tr Hcfg Hrun).
  - rewrite (tx_disabled W op r Hcfg) in Hrun. inversion Hrun; subst r' tr.
    rewrite (reachable_disabled _ _ Hcfg Hreach).
    destruct op; [discriminate (Hstart eq_refl)| |]; by split.
Qed.

Lemma success_establishes_commit :
  reachable (connection started) started /\
  run (tx quiet Commit) started
    = (Normal (Fulfilled tt), constructor conn_on,
       [Broadcast "BeforeTransactionCommit"; SessionCall 7 "commitTransaction";
        SessionCall 7 "endSession"; Broadcast "AfterTransactionCommit";
        LogQuery "COMMIT"]) /\
  established Commit (constructor conn_on).
Proof.
  split; [exact started_reachable|]. split; [reflexivity|].
  apply (success_establishes quiet Commit started (constructor conn_on)
           [Broadcast "BeforeTransactionCommit";
            SessionCall 7 "commitTransaction"; SessionCall 7 "endSession";
            Broadcast "AfterTransactionCommit"; LogQuery "COMMIT"]).
  - exact started_reachable.
  - discriminate.
  - reflexivity.
Defined.

(** C7 as stated fails: [endSession] is called without [await], so when
    it fails by delivering its failure late (through the promise it
    returns) instead of throwing, nothing catches the failure:
    [commitTransaction] goes on, clears the flag and the session, fires the
    "after commit" notification and fulfils. *)
Lemma commit_drops_late_endSession_failure :
  let W := failing_late (is_session_call "endSession") in
  isTransactionActive started = true /\
  session started = Some 7 /\
  fails W (SessionCall 7 "endSession") = Some (ExternalError 1) /\
  run (commitTransaction W) started
    = (Normal (Fulfilled tt), constructor conn_on,
       [Broadcast "BeforeTransactionCommit"; SessionCall 7 "commitTransaction";
        SessionCall 7 "endSession"; Broadcast "AfterTransactionCommit";
        LogQuery "COMMIT"]) /\
  ~ (fst (run (commitTransaction W) started)
       = (Normal (Rejected (ExternalError 1)), started)).
Proof. cbn zeta. repeat split; try reflexivity. discriminate. Qed.

(** C7 (amended).  When [commitTransaction] runs on an active transaction
    and the session's commit fails, or after it the session's end throws,
    the returned promise rejects with that failure and the runner is
    untouched: the flag is still true and the session still defined. *)
Theorem commit_failure_keeps_transaction W r s e :
  enableTransactions (options r) = true ->
  isTransactionActive r = true ->
  session r = Some s ->
  fails W (Broadcast "BeforeTransactionCommit") = None ->
  fails W (SessionCall s "commitTransaction") = Some e \/
  (fails W (SessionCall s "commitTransaction") = None /\
   fails W (SessionCall s "endSession") = Some e /\
   deferred W (SessionCall s "endSession") = false) ->
  fst (run (commitTransaction W) r) = (Normal (Rejected e), r) /\
  isTransactionActive (after (commitTransaction W) r) = true /\
  session (after (commitTransaction W) r) = Some s.
Proof.
  destruct r as [conn rel act ses]. cbn. intros Hon -> -> Hbefore Hfail.
  exec. rewrite Hon. cbn. rewrite Hbefore. cbn.
  destruct Hfail as [Hc | (Hc & He & Hd)].
  - rewrite Hc. cbn. auto.
  - rewrite Hc. cbn. rewrite He, Hd. cbn. auto.
Qed.

Lemma commit_failure_keeps_transaction_endSession :
  let W := failing (is_session_call "endSession") in
  enableTransactions (options started) = true /\
  isTransactionActive started = true /\
  session started = Some 7 /\
  fails W (SessionCall 7 "endSession") = Some (ExternalError 1) /\
  deferred W (SessionCall 7 "endSession") = false /\
  fst (run (commitTransaction W) started)
    = (Normal (Rejected (ExternalError 1)), started) /\
  isTransactionActive (after (commitTransaction W) started) = true /\
  session (after (commitTransaction W) started) = Some 7.
Proof.
  cbn zeta. do 5 (split; [reflexivity|]).
  apply (commit_failure_keeps_transaction
           (failing (is_session_call "endSession")) started 7
           (ExternalError 1)); try reflexivity.
  right. repeat split; reflexivity.
Defined.

(** C8.  With transactions disabled [startTransaction] does nothing: its
    promise fulfils, the runner is unchanged (the flag stays as it was, no
    session appears) and no collaborator is called, so no notification is
    fired. *)
Theorem start_disabled_noop W r :
  enableTransactions (options r) = false ->
  run (startTransaction W) r = (Normal (Fulfilled tt), r, []).
Proof. exact (tx_disabled W Start r). Qed.

Lemma start_disabled_noop_fresh :
  enableTransactions (options (constructor conn_off)) = false /\
  run (startTransaction quiet) (constructor conn_off)
    = (Normal (Fulfilled tt), constructor conn_off, []) /\
  isTransactionActive (constructor conn_off) = false /\
  session (constructor conn_off) = None.
Proof.
  split; [reflexivity|]. split.
  - apply (start_disabled_noop quiet (constructor conn_off)). reflexivity.
  - split; reflexivity.
Defined.

(** C10.  When, with transactions enabled, the session is created and its
    transaction begun but the "AfterTransactionStart" notification fails,
    [startTransaction] rejects with that failure while the flag is true and
    the session reference is set: the transaction stays active. *)
Theorem start_after_notification_failure W r e :
  enableTransactions (options r) = true ->
  fails W (Broadcast "BeforeTransactionStart") = None ->
  fails W StartSession = None ->
  fails W (SessionCall (newSession W) "startTransaction") = None ->
  fails W (LogQuery "BEGIN TRANSACTION") = None ->
  fails W (Broadcast "AfterTransactionStart") = Some e ->
  run (startTransaction W) r
    = (Normal (Rejected e),
       {| connection := connection r; isReleased := isReleased r;
          isTransactionActive := true; session := Some (newSession W) |},
       [Broadcast "BeforeTransactionStart"; StartSession;
        SessionCall (newSession W) "startTransaction";
        LogQuery "BEGIN TRANSACTION"; Broadcast "AfterTransactionStart"]).
Proof.
  intros Hon Hb Hs Ht Hl Ha. exec.
  rewrite Hon. cbn. rewrite Hb. cbn. rewrite Hs. cbn. rewrite Ht. cbn.
  rewrite Hl. cbn. rewrite Ha. reflexivity.
Qed.

Lemma start_after_notification_failure_fresh :
  let W := failing (is_broadcast "AfterTransactionStart") in
  enableTransactions (options (constructor conn_on)) = true /\
  fails W (Broadcast "AfterTransactionStart") = Some (ExternalError 1) /\
  run (startTransaction W) (constructor conn_on)
    = (Normal (Rejected (ExternalError 1)), started,
       [Broadcast "BeforeTransactionStart"; StartSession;
        SessionCall 7 "startTransaction";
        LogQuery "BEGIN TRANSACTION"; Broadcast "AfterTransactionStart"]).
Proof.
  cbn zeta. do 2 (split; [reflexivity|]).
  apply (start_after_notification_failure
           (failing (is_broadcast "AfterTransactionStart"))
           (constructor conn_on) (ExternalError 1)); reflexivity.
Defined.

(** ** Pass-through operations *)

(** The same for the pass-through and whole-store methods. *)
Ltac exec_op :=
  unfold client_calls, run, cursor, aggregate, bulkWrite, count,
    createCollectionIndex, createCollectionIndexes, deleteMany, deleteOne,
    distinct, dropCollectionIndex, dropCollectionIndexes, findOneAndDelete,
    findOneAndReplace, findOneAndUpdate, geoHaystackSearch, geoNear, group,
    collectionIndexes, collectionIndexExists, collectionIndexInformation,
    initializeOrderedBulkOp, initializeUnorderedBulkOp, insertMany,
    insertOne, isCapped, listCollectionIndexes, mapReduce,
    parallelCollectionScan, reIndex, rename, replaceOne, stats, watch,
    updateMany, updateOne, clearDatabase, clearTable, collection_call,
    collection_await, db_await, with_session, getCollection, call_async;
  unfold async, await, bind, ret, throw, call, get_this;
  cbn.

Lemma arg_session_spread (o : option ObjectLiteral) (s : option ClientSession) :
  arg_session (spread_session o s) = s.
Proof.
  unfold arg_session, spread_session. rewrite lookup_insert_eq.
  by destruct s.
Qed.

(** The methods that write [session: this.session] make one call on the
    collection, whose last argument is the caller's options with the
    runner's session written into them. *)
Lemma injecting_call W name op r :
  injects_session op = true ->
  exists method args,
    client_calls W name op r
      = [CollectionCall
           {| collection_database := driver_database (connection r);
              collection_name := name |}
           method args] /\
    last args = Some (spread_session (caller_options op) (session r)).
Proof.
  intros Hinj.
  destruct op; try discriminate Hinj; exec_op; split_world;
    eexists _, _; split; reflexivity.
Qed.


(** X15.  The other methods never read [this.session]: the call they make is the
    same whatever session the runner holds. *)
Lemma other_calls_ignore_session W name op r s :
  injects_session op = false ->
  client_calls W name op (with_session_ref s r) = client_calls W name op r.
Proof.
  intros Hinj.
  destruct op; try discriminate Hinj; exec_op; split_world; reflexivity.
Qed.

(** C1 (the code departs from the claim).  The claim: every pass-through
    operation, [stats] and cursor creation among them, forwards the session
    in the options of the client call when one exists.  On a runner whose
    transaction was started (session 7), [insertOne] hands the session to
    the client, but [stats] and [cursor] call the client without it. *)
Theorem stats_and_cursor_drop_session :
  let users := {| collection_database := Some "test";
                  collection_name := "users" |} in
  isTransactionActive started = true /\
  session started = Some 7 /\
  run (insertOne quiet "users" ∅ None) started
    = (Normal (Fulfilled undefined), started,
       [CollectionCall users "insertOne"
          [Object ∅; Object (<["session" := JsSession 7]> ∅)]]) /\
  run (stats quiet "users" None) started
    = (Normal (Fulfilled undefined), started,
       [CollectionCall users "stats" [Value undefined]]) /\
  run (cursor quiet "users" None) started
    = (Normal undefined, started, [CollectionCall users "find" [Object ∅]]) /\
  forwarded_session (CollectionCall users "stats" [Value undefined]) = None /\
  forwarded_session (CollectionCall users "find" [Object ∅]) = None.
Proof. cbn zeta. repeat split; reflexivity. Qed.

(** ** Destructive whole-store operations *)

(** C9.  In every state of the runner, [clearDatabase] makes one call, the
    database-level [dropDatabase], and [clearTable] makes one call, the
    database's [dropCollection] on the named collection; neither call
    carries a session, and neither depends on or changes the flag or the
    session. *)
Theorem clear_operations_bypass_session W r name :
  snd (run (clearDatabase W) r)
    = [DbCall (driver_database (connection r)) "dropDatabase" []] /\
  snd (run (clearTable W name) r)
    = [DbCall (driver_database (connection r)) "dropCollection"
         [Value (JsString name)]] /\
  Forall (fun c => call_sessions c = []) (snd (run (clearDatabase W) r)) /\
  Forall (fun c => call_sessions c = []) (snd (run (clearTable W name) r)) /\
  after (clearDatabase W) r = r /\
  after (clearTable W name) r = r.
Proof.
  assert (snd (run (clearDatabase W) r)
          = [DbCall (driver_database (connection r)) "dropDatabase" []]) as Hd.
  { exec_op. split_world; reflexivity. }
  assert (snd (run (clearTable W name) r)
          = [DbCall (driver_database (connection r)) "dropCollection"
               [Value (JsString name)]]) as Ht.
  { exec_op. split_world; reflexivity. }
  rewrite Hd, Ht. repeat split.
  - by repeat constructor.
  - by repeat constructor.
  - unfold after. exec_op. split_world; reflexivity.
  - unfold after. exec_op. split_world; reflexivity.
Qed.

(** ** Rejected operations *)

(** Every rejected operation completes at once, without a call and
    without touching the runner: by a rejected promise when the method is
    declared [async], by a synchronous throw otherwise. *)
Lemma unsupported_outcome op r :
  run (unsupported op) r
    = (if declared_async op
       then Normal (Rejected (TypeORMError (message op)))
       else Throw (TypeORMError (message op)),
       r, []).
Proof. unfold unsupported. destruct (declared_async op); reflexivity. Qed.

(** All schema-definition operations are declared [async]. *)
Lemma schema_definition_async op :
  schema_definition op = true -> declared_async op = true.
Proof. destruct op; intros H; try discriminate H; reflexivity. Qed.

(** Every message says that the operation is not supported. *)
Lemma message_not_supported op :
  contains "not supported by MongoDB driver" (message op) = true.
Proof. destruct op; reflexivity. Qed.

(** C2 as stated fails: [createTable] is declared [async], so invoking it
    does not throw; it returns a promise that is rejected. *)
Lemma createTable_does_not_throw :
  run (unsupported createTable) (constructor conn_on)
    = (Normal (Rejected (TypeORMError
         "Schema update queries are not supported by MongoDB driver.")),
       constructor conn_on, []) /\
  ~ throws (fst (fst (run (unsupported createTable) (constructor conn_on)))).
Proof.
  split; [reflexivity|]. intros [e He]. discriminate He.
Qed.

(** C2 (amended).  Invoking a schema-definition operation returns a promise
    already rejected with the operation's not-supported error; invoking
    [query] or [stream] throws that error synchronously.  In both cases no
    collaborator is called, so the underlying client is never touched, and
    the runner is unchanged. *)
Theorem rejected_without_client op r :
  schema_definition op = true \/ op = query \/ op = stream ->
  let err := TypeORMError (message op) in
  run (unsupported op) r
    = (if schema_definition op then Normal (Rejected err) else Throw err,
       r, []) /\
  contains "not supported by MongoDB driver" (message op) = true.
Proof.
  intros Hscope. cbn zeta. split; [|apply message_not_supported].
  rewrite unsupported_outcome.
  destruct Hscope as [Hddl | [-> | ->]]; [|reflexivity..].
  rewrite Hddl, (schema_definition_async op Hddl). reflexivity.
Qed.

Lemma rejected_without_client_createTable :
  (schema_definition createTable = true \/
   createTable = query \/ createTable = stream) /\
  run (unsupported createTable) (constructor conn_on)
    = (Normal (Rejected (TypeORMError (message createTable))),
       constructor conn_on, []) /\
  contains "not supported by MongoDB driver" (message createTable) = true.
Proof.
  split; [left; reflexivity|].
  apply (rejected_without_client createTable (constructor conn_on)).
  left. reflexivity.
Defined.

(** ** Further properties of the transaction lifecycle *)

(** Use the hypothesis that no call fails wherever a call is answered. *)
Ltac oblige H := repeat (rewrite !H; cbn).

(** The whole of a successful start. *)
Lemma start_run_obliging W r :
  enableTransactions (options r) = true ->
  obliging W ->
  run (startTransaction W) r
    = (Normal (Fulfilled tt), active_on (newSession W) r,
       [Broadcast "BeforeTransactionStart"; StartSession;
        SessionCall (newSession W) "startTransaction";
        LogQuery "BEGIN TRANSACTION"; Broadcast "AfterTransactionStart"]).
Proof.
  intros Hon Hob. exec. rewrite Hon. cbn. oblige Hob. reflexivity.
Qed.

(** The whole of a successful commit or rollback of a transaction. *)
Lemma close_run_obliging W op r s :
  op <> Start ->
  enableTransactions (options r) = true ->
  isTransactionActive r = true ->
  session r = Some s ->
  obliging W ->
  run (tx W op) r
    = (Normal (Fulfilled tt), idle r,
       [Broadcast (before_event op); SessionCall s (session_method op);
        SessionCall s "endSession"; Broadcast (after_event op);
        LogQuery (logged op)]).
Proof.
  destruct r as [conn rel act ses]. cbn. intros Hop Hon -> -> Hob.
  destruct op; [done| |]; exec; rewrite Hon; cbn; oblige Hob; reflexivity.
Qed.

(** X1.  Start then commit, or start then rollback, with collaborators that do
    not fail: the second call ends the session the first one created and
    leaves the runner without a transaction. *)
Theorem start_then_close_round_trip W1 W2 op r :
  op <> Start ->
  enableTransactions (options r) = true ->
  obliging W1 ->
  obliging W2 ->
  run (tx W2 op) (after (startTransaction W1) r)
    = (Normal (Fulfilled tt), idle r,
       [Broadcast (before_event op);
        SessionCall (newSession W1) (session_method op);
        SessionCall (newSession W1) "endSession";
        Broadcast (after_event op); LogQuery (logged op)]).
Proof.
  intros Hop Hon Hob1 Hob2.
  unfold after. rewrite (start_run_obliging W1 r Hon Hob1). cbn [fst snd].
  rewrite (close_run_obliging W2 op (active_on (newSession W1) r)
             (newSession W1) Hop Hon eq_refl eq_refl Hob2).
  reflexivity.
Qed.

Lemma start_then_close_round_trip_fresh :
  Rollback <> Start /\
  enableTransactions (options (constructor conn_on)) = true /\
  obliging quiet /\
  run (tx quiet Rollback) (after (startTransaction quiet) (constructor conn_on))
    = (Normal (Fulfilled tt), constructor conn_on,
       [Broadcast "BeforeTransactionRollback";
        SessionCall 7 "abortTransaction"; SessionCall 7 "endSession";
        Broadcast "AfterTransactionRollback"; LogQuery "ROLLBACK"]).
Proof.
  split; [discriminate|]. split; [reflexivity|].
  split; [intros c; reflexivity|].
  apply (start_then_close_round_trip quiet quiet Rollback (constructor conn_on)).
  - discriminate.
  - reflexivity.
  - intros c. reflexivity.
  - intros c. reflexivity.
Defined.

(** X2.  A second [startTransaction] on a runner that holds a session replaces
    the session by a new one and never calls the old one: the old session
    is neither committed, aborted nor ended. *)
Theorem second_start_abandons_session W r s :
  enableTransactions (options r) = true ->
  session r = Some s ->
  newSession W <> s ->
  obliging W ->
  fst (run (startTransaction W) r)
    = (Normal (Fulfilled tt), active_on (newSession W) r) /\
  Forall (fun c => on_session s c = false) (snd (run (startTransaction W) r)).
Proof.
  intros Hon Hs Hnew Hob.
  rewrite (start_run_obliging W r Hon Hob). cbn [fst snd]. split; [done|].
  assert (Nat.eqb (newSession W) s = false) as Hne by by apply Nat.eqb_neq.
  repeat constructor; cbn; done.
Qed.

Lemma second_start_abandons_session_example :
  let W := {| fails := fun _ => None; newSession := 8;
              reply := fun _ => undefined; deferred := fun _ => false |} in
  enableTransactions (options started) = true /\
  session started = Some 7 /\
  fst (run (startTransaction W) started)
    = (Normal (Fulfilled tt), active_on 8 started) /\
  Forall (fun c => on_session 7 c = false) (snd (run (startTransaction W) started)).
Proof.
  cbn zeta. do 2 (split; [reflexivity|]).
  apply (second_start_abandons_session
           {| fails := fun _ => None; newSession := 8;
              reply := fun _ => undefined; deferred := fun _ => false |}
           started 7).
  - reflexivity.
  - reflexivity.
  - discriminate.
  - intros c. reflexivity.
Defined.

(** X3.  A commit or rollback on a runner whose flag is set but which holds no
    session (the state a failed session creation leaves) calls no session
    method: it fires its two notifications, clears the flag and fulfils. *)
Theorem close_without_session W op r :
  op <> Start ->
  enableTransactions (options r) = true ->
  isTransactionActive r = true ->
  session r = None ->
  fails W (Broadcast (before_event op)) = None ->
  fails W (Broadcast (after_event op)) = None ->
  run (tx W op) r
    = (Normal (Fulfilled tt), idle r,
       [Broadcast (before_event op); Broadcast (after_event op);
        LogQuery (logged op)]).
Proof.
  destruct r as [conn rel act ses]. cbn. intros Hop Hon -> -> Hb Ha.
  destruct op; [done| |]; cbn in Hb, Ha; exec; rewrite Hon; cbn;
    rewrite Hb; cbn; rewrite Ha; cbn; split_world; reflexivity.
Qed.

Lemma close_without_session_after_failed_start :
  let r := after (startTransaction (failing is_startSession))
             (constructor conn_on) in
  Commit <> Start /\
  isTransactionActive r = true /\ session r = None /\
  run (tx quiet Commit) r
    = (Normal (Fulfilled tt), constructor conn_on,
       [Broadcast "BeforeTransactionCommit";
        Broadcast "AfterTransactionCommit"; LogQuery "COMMIT"]).
Proof.
  cbn zeta. split; [discriminate|]. do 2 (split; [reflexivity|]).
  apply (close_without_session quiet Commit
           (after (startTransaction (failing is_startSession))
              (constructor conn_on))).
  - discriminate.
  - reflexivity.
  - reflexivity.
  - reflexivity.
  - reflexivity.
  - reflexivity.
Defined.

(** X4.  When [rollbackTransaction] runs on an active transaction and the
    session's abort fails, or after it the session's end throws, the
    promise rejects with that failure, the runner is untouched and the
    "after rollback" notification is not fired. *)
Theorem rollback_failure_keeps_transaction W r s e :
  enableTransactions (options r) = true ->
  isTransactionActive r = true ->
  session r = Some s ->
  fails W (Broadcast "BeforeTransactionRollback") = None ->
  fails W (SessionCall s "abortTransaction") = Some e \/
  (fails W (SessionCall s "abortTransaction") = None /\
   fails W (SessionCall s "endSession") = Some e /\
   deferred W (SessionCall s "endSession") = false) ->
  fst (run (rollbackTransaction W) r) = (Normal (Rejected e), r) /\
  Forall (fun c => c <> Broadcast "AfterTransactionRollback")
    (snd (run (rollbackTransaction W) r)).
Proof.
  destruct r as [conn rel act ses]. cbn. intros Hon -> -> Hbefore Hfail.
  exec. rewrite Hon. cbn. rewrite Hbefore. cbn.
  destruct Hfail as [Hc | (Hc & He & Hd)].
  - rewrite Hc. cbn. split; [done|]. by repeat constructor.
  - rewrite Hc. cbn. rewrite He, Hd. cbn. split; [done|].
    by repeat constructor.
Qed.

Lemma rollback_failure_keeps_transaction_endSession :
  let W := failing (is_session_call "endSession") in
  enableTransactions (options started) = true /\
  isTransactionActive started = true /\
  session started = Some 7 /\
  fails W (SessionCall 7 "endSession") = Some (ExternalError 1) /\
  deferred W (SessionCall 7 "endSession") = false /\
  fst (run (rollbackTransaction W) started)
    = (Normal (Rejected (ExternalError 1)), started) /\
  Forall (fun c => c <> Broadcast "AfterTransactionRollback")
    (snd (run (rollbackTransaction W) started)).
Proof.
  cbn zeta. do 5 (split; [reflexivity|]).
  apply (rollback_failure_keeps_transaction
           (failing (is_session_call "endSession")) started 7
           (ExternalError 1)); try reflexivity.
  right. repeat split; reflexivity.
Defined.

(** X5.  When the notification fired after a commit or rollback fails, the
    promise rejects with that failure although the session has been
    committed (or aborted) and ended: the runner is left without a
    transaction and nothing is logged. *)
Theorem close_after_notification_failure W op r s e :
  op <> Start ->
  enableTransactions (options r) = true ->
  isTransactionActive r = true ->
  session r = Some s ->
  fails W (Broadcast (before_event op)) = None ->
  fails W (SessionCall s (session_method op)) = None ->
  fails W (SessionCall s "endSession") = None ->
  fails W (Broadcast (after_event op)) = Some e ->
  run (tx W op) r
    = (Normal (Rejected e), idle r,
       [Broadcast (before_event op); SessionCall s (session_method op);
        SessionCall s "endSession"; Broadcast (after_event op)]).
Proof.
  destruct r as [conn rel act ses]. cbn. intros Hop Hon -> -> Hb Hc He Ha.
  destruct op; [done| |]; cbn in Hb, Hc, Ha; exec; rewrite Hon; cbn;
    rewrite Hb; cbn; rewrite Hc; cbn; rewrite He; cbn; rewrite Ha;
    reflexivity.
Qed.

Lemma close_after_notification_failure_commit :
  let W := failing (is_broadcast "AfterTransactionCommit") in
  Commit <> Start /\
  isTransactionActive started = true /\
  session started = Some 7 /\
  fails W (Broadcast (after_event Commit)) = Some (ExternalError 1) /\
  run (tx W Commit) started
    = (Normal (Rejected (ExternalError 1)), constructor conn_on,
       [Broadcast "BeforeTransactionCommit";
        SessionCall 7 "commitTransaction"; SessionCall 7 "endSession";
        Broadcast "AfterTransactionCommit"]).
Proof.
  cbn zeta. split; [discriminate|]. do 3 (split; [reflexivity|]).
  apply (close_after_notification_failure
           (failing (is_broadcast "AfterTransactionCommit")) Commit started 7
           (ExternalError 1)); try reflexivity.
  discriminate.
Defined.

(** X6.  When the notification fired before a commit or rollback fails, the
    promise rejects with that failure, no session method is called and the
    runner is untouched: the transaction is still open. *)
Theorem close_before_notification_failure W op r e :
  op <> Start ->
  enableTransactions (options r) = true ->
  isTransactionActive r = true ->
  fails W (Broadcast (before_event op)) = Some e ->
  run (tx W op) r = (Normal (Rejected e), r, [Broadcast (before_event op)]).
Proof.
  destruct r as [conn rel act ses]. cbn. intros Hop Hon -> Hb.
  destruct op; [done| |]; cbn in Hb; exec; rewrite Hon; cbn; rewrite Hb;
    reflexivity.
Qed.

Lemma close_before_notification_failure_rollback :
  let W := failing (is_broadcast "BeforeTransactionRollback") in
  Rollback <> Start /\
  isTransactionActive started = true /\
  fails W (Broadcast (before_event Rollback)) = Some (ExternalError 1) /\
  run (tx W Rollback) started
    = (Normal (Rejected (ExternalError 1)), started,
       [Broadcast "BeforeTransactionRollback"]).
Proof.
  cbn zeta. split; [discriminate|]. do 2 (split; [reflexivity|]).
  apply (close_before_notification_failure
           (failing (is_broadcast "BeforeTransactionRollback")) Rollback
           started (ExternalError 1)); try reflexivity.
  discriminate.
Defined.

(** X7.  A failure of the logger at the end of a commit or rollback is not
    reported: the promise has been fulfilled before the line is logged. *)
Theorem close_log_failure_is_swallowed W op r s e :
  op <> Start ->
  enableTransactions (options r) = true ->
  isTransactionActive r = true ->
  session r = Some s ->
  fails W (Broadcast (before_event op)) = None ->
  fails W (SessionCall s (session_method op)) = None ->
  fails W (SessionCall s "endSession") = None ->
  fails W (Broadcast (after_event op)) = None ->
  fails W (LogQuery (logged op)) = Some e ->
  fst (run (tx W op) r) = (Normal (Fulfilled tt), idle r).
Proof.
  destruct r as [conn rel act ses]. cbn. intros Hop Hon -> -> Hb Hc He Ha Hl.
  destruct op; [done| |]; cbn in Hb, Hc, Ha, Hl; exec; rewrite Hon; cbn;
    rewrite Hb; cbn; rewrite Hc; cbn; rewrite He; cbn; rewrite Ha; cbn;
    rewrite Hl; reflexivity.
Qed.

Lemma close_log_failure_is_swallowed_commit :
  let W := failing is_logQuery in
  Commit <> Start /\
  isTransactionActive started = true /\
  session started = Some 7 /\
  fails W (LogQuery (logged Commit)) = Some (ExternalError 1) /\
  fst (run (tx W Commit) started) = (Normal (Fulfilled tt), constructor conn_on).
Proof.
  cbn zeta. split; [discriminate|]. do 3 (split; [reflexivity|]).
  apply (close_log_failure_is_swallowed (failing is_logQuery) Commit started 7
           (ExternalError 1)); try reflexivity.
  discriminate.
Defined.



(** X9.  If the new session refuses to begin a transaction, the start rejects
    with that failure; the runner keeps the flag set and the session it
    just created, which is not ended. *)
Theorem start_session_transaction_failure W r e :
  enableTransactions (options r) = true ->
  fails W (Broadcast "BeforeTransactionStart") = None ->
  fails W StartSession = None ->
  fails W (SessionCall (newSession W) "startTransaction") = Some e ->
  run (startTransaction W) r
    = (Normal (Rejected e), active_on (newSession W) r,
       [Broadcast "BeforeTransactionStart"; StartSession;
        SessionCall (newSession W) "startTransaction"]).
Proof.
  intros Hon Hb Hs Ht. exec.
  rewrite Hon. cbn. rewrite Hb. cbn. rewrite Hs. cbn. rewrite Ht.
  reflexivity.
Qed.

Lemma start_session_transaction_failure_fresh :
  let W := failing (is_session_call "startTransaction") in
  enableTransactions (options (constructor conn_on)) = true /\
  fails W (SessionCall (newSession W) "startTransaction")
    = Some (ExternalError 1) /\
  run (startTransaction W) (constructor conn_on)
    = (Normal (Rejected (ExternalError 1)), started,
       [Broadcast "BeforeTransactionStart"; StartSession;
        SessionCall 7 "startTransaction"]).
Proof.
  cbn zeta. do 2 (split; [reflexivity|]).
  apply (start_session_transaction_failure
           (failing (is_session_call "startTransaction"))
           (constructor conn_on) (ExternalError 1)); reflexivity.
Defined.

(** X10.  Whatever the collaborators do, a transaction method only fires
    notifications, logs, creates a session, or calls the session the runner
    holds (for a start: the one just created).  It never touches a
    database or a collection, nor a session that is not the runner's. *)
Theorem transaction_calls_are_own W op r :
  Forall (own_call W op r) (snd (run (tx W op) r)).
Proof.
  destruct r as [conn rel act ses].
  destruct op; exec;
    destruct (enableTransactions (connection_options conn)); cbn;
    try destruct act; cbn; split_world; try destruct ses; cbn; split_world;
    repeat constructor; cbn; done.
Qed.

Lemma success_keeps_invariant_start :
  session_iff_active (constructor conn_on) /\
  run (tx quiet Start) (constructor conn_on)
    = (Normal (Fulfilled tt), started,
       [Broadcast "BeforeTransactionStart"; StartSession;
        SessionCall 7 "startTransaction"; LogQuery "BEGIN TRANSACTION";
        Broadcast "AfterTransactionStart"]) /\
  session_iff_active started.
Proof.
  assert (session_iff_active (constructor conn_on)) as Hinv.
  { split; intros H; [by destruct H | discriminate H]. }
  split; [exact Hinv|]. split; [reflexivity|].
  apply (success_keeps_invariant quiet Start (constructor conn_on) started
           [Broadcast "BeforeTransactionStart"; StartSession;
            SessionCall 7 "startTransaction"; LogQuery "BEGIN TRANSACTION";
            Broadcast "AfterTransactionStart"]).
  - exact Hinv.
  - reflexivity.
Defined.

(** ** Further properties of the pass-through operations *)

(** Unfold an invocation of a pass-through method down to the match on the
    client's answer. *)
Ltac exec_pass :=
  unfold after, pass_through, direct, promised; exec_op;
  unfold async, await, bind, ret, throw, call, get_this; cbn.

(** X12.  A method that writes [session: this.session] makes exactly one client
    call, and the session found in its options is the runner's: the
    transaction's session when there is one, none otherwise. *)
Theorem injecting_methods_forward_session W name op r :
  injects_session op = true ->
  exists c,
    client_calls W name op r = [c] /\
    forwarded_session c = session r.
Proof.
  intros Hinj.
  destruct (injecting_call W name op r Hinj) as (method & args & Hcalls & Hlast).
  eexists. split; [exact Hcalls|].
  cbn. rewrite Hlast. cbn. apply arg_session_spread.
Qed.

Lemma injecting_methods_forward_session_updateOne :
  injects_session (UpdateOne ∅ ∅ None) = true /\
  exists c,
    client_calls quiet "users" (UpdateOne ∅ ∅ None) started = [c] /\
    forwarded_session c = session started.
Proof.
  split; [reflexivity|].
  apply (injecting_methods_forward_session quiet "users"
           (UpdateOne ∅ ∅ None) started).
  reflexivity.
Defined.

(** X13.  The options such a method hands to the client are the caller's with
    the [session] field overwritten: every other field is the caller's,
    and a session the caller put there is replaced by the runner's, by
    [undefined] when the runner has none. *)
Theorem injected_options_overwrite_session W name op r :
  injects_session op = true ->
  exists method args fwd,
    client_calls W name op r
      = [CollectionCall
           {| collection_database := driver_database (connection r);
              collection_name := name |}
           method args] /\
    last args = Some (Object fwd) /\
    fwd !! "session" = Some (session_value (session r)) /\
    forall k, k <> "session" ->
              fwd !! k = default ∅ (caller_options op) !! k.
Proof.
  intros Hinj.
  destruct (injecting_call W name op r Hinj) as (method & args & Hcalls & Hlast).
  exists method, args. eexists. split; [exact Hcalls|].
  split; [exact Hlast|]. split.
  - apply lookup_insert_eq.
  - intros k Hk. apply lookup_insert_ne. congruence.
Qed.

Lemma injected_options_overwrite_session_caller :
  let o : ObjectLiteral :=
    <["session" := JsSession 3]> (<["w" := JsOpaque 1]> ∅) in
  let op := DeleteOne ∅ (Some o) in
  let r := constructor conn_on in
  injects_session op = true /\
  session r = None /\
  exists method args fwd,
    client_calls quiet "users" op r
      = [CollectionCall
           {| collection_database := driver_database (connection r);
              collection_name := "users" |}
           method args] /\
    last args = Some (Object fwd) /\
    fwd !! "session" = Some (session_value (session r)) /\
    forall k, k <> "session" ->
              fwd !! k = default ∅ (caller_options op) !! k.
Proof.
  intros o op r. do 2 (split; [reflexivity|]).
  apply (injected_options_overwrite_session quiet "users" op r).
  reflexivity.
Defined.

(** X14.  The other methods that take options hand them to the client as they
    are, so with them only a session the caller supplies reaches the
    client. *)
Theorem caller_options_pass_verbatim W name op r o :
  injects_session op = false ->
  caller_options op = Some o ->
  exists method args,
    client_calls W name op r
      = [CollectionCall
           {| collection_database := driver_database (connection r);
              collection_name := name |}
           method args] /\
    last args = Some (Object o).
Proof.
  intros Hinj Ho.
  destruct op; try discriminate Hinj; try discriminate Ho;
    cbn in Ho; inversion Ho; subst; exec_op; split_world;
    eexists _, _; split; reflexivity.
Qed.

Lemma caller_options_pass_verbatim_stats :
  let o : ObjectLiteral := <["session" := JsSession 3]> ∅ in
  injects_session (Stats (Some o)) = false /\
  caller_options (Stats (Some o)) = Some o /\
  exists method args,
    client_calls quiet "users" (Stats (Some o)) started
      = [CollectionCall
           {| collection_database := Some "test"; collection_name := "users" |}
           method args] /\
    last args = Some (Object o).
Proof.
  cbn zeta. do 2 (split; [reflexivity|]).
  apply (caller_options_pass_verbatim quiet "users"
           (Stats (Some (<["session" := JsSession 3]> ∅))) started
           (<["session" := JsSession 3]> ∅)); reflexivity.
Defined.

Lemma other_calls_ignore_session_rename :
  injects_session (Rename "archive" None) = false /\
  client_calls quiet "users" (Rename "archive" None)
    (with_session_ref (Some 9) started)
  = client_calls quiet "users" (Rename "archive" None) started.
Proof.
  split; [reflexivity|].
  apply (other_calls_ignore_session quiet "users" (Rename "archive" None)
           started (Some 9)).
  reflexivity.
Defined.

(** X16.  Every pass-through method makes exactly one call, on the named
    collection of the driver's database, and hands back what that call
    gives: its result as it is, its failure as it is (thrown by the
    methods that are not [async], as a rejected promise by the others).
    The runner is not changed. *)
Theorem pass_through_hands_back W name op r :
  exists method args,
    let c := CollectionCall
               {| collection_database := driver_database (connection r);
                  collection_name := name |}
               method args in
    run (pass_through W name op) r
      = (handed_back op (fails W c) (reply W c), r, [c]) /\
    client_calls W name op r = [c].
Proof.
  destruct r as [conn rel act ses].
  destruct op; exec_pass;
    match goal with
    | |- context [fails W (CollectionCall ?h ?m ?a)] =>
        exists m, a; cbn; destruct (fails W (CollectionCall h m a)); cbn
    end; split; reflexivity.
Qed.

(** No pass-through method changes the runner. *)
Lemma pass_through_keeps_runner W name op r :
  after (pass_through W name op) r = r.
Proof.
  destruct r as [conn rel act ses].
  destruct op; exec_pass; split_world; reflexivity.
Qed.

(** ** The runner across all its methods *)

(** Only the transaction methods assign fields of the runner. *)
Lemma invoke_keeps_runner W i r :
  is_transaction i = false -> fst (invoke W i r) = r.
Proof.
  intros Hi. destruct i; try discriminate Hi; cbn.
  - apply pass_through_keeps_runner.
  - unfold after. rewrite unsupported_outcome. reflexivity.
  - destruct r. unfold after. exec_op. split_world; reflexivity.
  - destruct r. unfold after. exec_op. split_world; reflexivity.
  - by destruct r.
  - by destruct r.
  - by destruct r.
  - by destruct r.
  - by destruct r.
Qed.

(** [isReleased] is never assigned. *)
Lemma after_tx_isReleased W op r :
  isReleased (after (tx W op) r) = isReleased r.
Proof.
  destruct r as [conn rel act ses].
  destruct op; exec;
    destruct (enableTransactions (connection_options conn)); cbn;
    try destruct act; cbn; split_world; try destruct ses; cbn; split_world;
    reflexivity.
Qed.

Lemma reachable_by_any_reachable conn r :
  reachable_by_any conn r -> reachable conn r.
Proof.
  induction 1 as [|W i r _ IH]; [constructor|].
  destruct (is_transaction i) eqn:Hi.
  - destruct i; try discriminate Hi. cbn. by constructor.
  - by rewrite invoke_keeps_runner.
Qed.

(** X17.  Every method other than [startTransaction], [commitTransaction] and
    [rollbackTransaction] leaves the runner as it found it: no pass-through
    operation, rejected operation, [clearDatabase], [clearTable],
    [connect], [release] or migration hook starts, ends or disturbs a
    transaction.  In particular [release] does not end an open session. *)
Theorem only_transactions_change_runner W i r :
  is_transaction i = false -> fst (invoke W i r) = r.
Proof. exact (invoke_keeps_runner W i r). Qed.

Lemma only_transactions_change_runner_release :
  is_transaction Release = false /\
  invoke quiet Release started = (started, []).
Proof.
  split; [reflexivity|].
  apply injective_projections; [|reflexivity].
  apply (only_transactions_change_runner quiet Release started).
  reflexivity.
Defined.

(** X18.  The states reachable with all public methods are those reachable with
    the three transaction methods alone. *)
Theorem reachable_by_any_iff_reachable conn r :
  reachable_by_any conn r <-> reachable conn r.
Proof.
  split; [apply reachable_by_any_reachable|].
  induction 1 as [|W op r _ IH]; [constructor|].
  exact (reachable_by_any_step conn W (Transaction op) r IH).
Qed.

(** X19.  Whatever methods are called and whatever the collaborators do,
    [isReleased] stays false and the runner keeps its connection. *)
Theorem released_flag_and_connection_are_constant conn r :
  reachable_by_any conn r ->
  isReleased r = false /\ connection r = conn.
Proof.
  intros Hr. apply reachable_by_any_reachable in Hr.
  induction Hr as [|W op r _ [IH1 IH2]]; [by split|].
  by rewrite after_tx_isReleased, after_tx_connection.
Qed.

Lemma released_flag_and_connection_are_constant_started :
  let r := fst (invoke quiet Release
                  (fst (invoke quiet (Transaction Start) (constructor conn_on)))) in
  reachable_by_any conn_on r /\
  isReleased r = false /\ connection r = conn_on.
Proof.
  cbn zeta.
  assert (reachable_by_any conn_on
            (fst (invoke quiet Release
                    (fst (invoke quiet (Transaction Start)
                            (constructor conn_on)))))) as Hr.
  { apply reachable_by_any_step, reachable_by_any_step, reachable_by_any_new. }
  split; [exact Hr|].
  apply (released_flag_and_connection_are_constant conn_on _ Hr).
Defined.

(** X20.  With transactions disabled no sequence of method calls ever changes
    the runner: the flag stays false and no session is ever held. *)
Theorem disabled_runner_never_changes conn r :
  enableTransactions (connection_options conn) = false ->
  reachable_by_any conn r ->
  r = constructor conn.
Proof.
  intros Hoff Hr. apply reachable_by_any_reachable in Hr.
  induction Hr as [|W op r _ IH]; [reflexivity|].
  subst r. unfold after. by rewrite tx_disabled.
Qed.

Lemma disabled_runner_never_changes_sequence :
  let r := fst (invoke quiet (Transaction Rollback)
             (fst (invoke quiet (Transaction Commit)
                (fst (invoke quiet (Transaction Start)
                   (constructor conn_off)))))) in
  enableTransactions (connection_options conn_off) = false /\
  reachable_by_any conn_off r /\
  r = constructor conn_off.
Proof.
  cbn zeta.
  assert (reachable_by_any conn_off
            (fst (invoke quiet (Transaction Rollback)
               (fst (invoke quiet (Transaction Commit)
                  (fst (invoke quiet (Transaction Start)
                     (constructor conn_off)))))))) as Hr.
  { do 3 apply reachable_by_any_step. apply reachable_by_any_new. }
  split; [reflexivity|]. split; [exact Hr|].
  apply (disabled_runner_never_changes conn_off _ eq_refl Hr).
Defined.



(** ** Every rejected method *)

(** X22.  Each of the methods whose body only throws, the schema queries
    ([getTables], [hasTable], ...) and the SQL-memory methods included,
    completes without calling a collaborator and without changing the
    runner, with a [TypeORMError] whose message says "not supported by
    MongoDB driver": a rejected promise from the [async] methods, a
    synchronous throw from [query], [stream], [enableSqlMemory],
    [disableSqlMemory], [clearSqlMemory] and [getMemorySql]. *)
Theorem every_rejected_method op r :
  run (unsupported op) r
    = (if declared_async op
       then Normal (Rejected (TypeORMError (message op)))
       else Throw (TypeORMError (message op)),
       r, []) /\
  contains "not supported by MongoDB driver" (message op) = true /\
  (declared_async op = false <->
   op ∈ [query; stream; enableSqlMemory; disableSqlMemory; clearSqlMemory;
         getMemorySql]).
Proof.
  split; [apply unsupported_outcome|]. split; [apply message_not_supported|].
  split.
  - destruct op; intros H; try discriminate H; rewrite !elem_of_cons; auto 10.
  - rewrite !elem_of_cons, elem_of_nil. intros H.
    repeat (destruct H as [-> | H]; [reflexivity|]). destruct H.
Qed.

(** ** Further properties of the whole-store operations *)

(** X23.  [clearDatabase] and [clearTable] hand back the outcome of their one
    call: the promise fulfils when the drop succeeds and rejects with the
    client's failure, as it is, when the drop fails. *)
Theorem clear_operations_hand_back W r name :
  let settle_as c :=
    match fails W c with
    | None => Fulfilled tt
    | Some e => Rejected e
    end in
  let dropDatabase := DbCall (driver_database (connection r)) "dropDatabase" [] in
  let dropCollection :=
    DbCall (driver_database (connection r)) "dropCollection"
      [Value (JsString name)] in
  run (clearDatabase W) r = (Normal (settle_as dropDatabase), r, [dropDatabase]) /\
  run (clearTable W name) r
    = (Normal (settle_as dropCollection), r, [dropCollection]).
Proof.
  destruct r as [conn rel act ses]. cbn zeta.
  split; exec_op; split_world; reflexivity.
Qed.

(** ** A session left behind *)



(** ** A failure of [endSession] that is not thrown *)

(** X25.  [endSession] is called without [await].  When it fails by
    delivering its failure late (through the promise it returns) instead
    of throwing, a commit or rollback does not notice: it clears the flag
    and the session, fires its "after" notification, logs and fulfils, and
    the failure is lost. *)
Theorem close_drops_late_endSession_failure W op r s e :
  op <> Start ->
  enableTransactions (options r) = true ->
  isTransactionActive r = true ->
  session r = Some s ->
  fails W (Broadcast (before_event op)) = None ->
  fails W (SessionCall s (session_method op)) = None ->
  fails W (SessionCall s "endSession") = Some e ->
  deferred W (SessionCall s "endSession") = true ->
  fails W (Broadcast (after_event op)) = None ->
  fst (run (tx W op) r) = (Normal (Fulfilled tt), idle r) /\
  snd (run (tx W op) r)
    = [Broadcast (before_event op); SessionCall s (session_method op);
       SessionCall s "endSession"; Broadcast (after_event op);
       LogQuery (logged op)].
Proof.
  destruct r as [conn rel act ses]. cbn.
  intros Hop Hon -> -> Hb Hc He Hd Ha.
  destruct op; [done| |]; cbn in Hb, Hc, Ha; exec; rewrite Hon; cbn;
    rewrite Hb; cbn; rewrite Hc; cbn; rewrite He, Hd; cbn; rewrite Ha; cbn;
    split_world; split; reflexivity.
Qed.

Lemma close_drops_late_endSession_failure_rollback :
  let W := failing_late (is_session_call "endSession") in
  Rollback <> Start /\
  isTransactionActive started = true /\
  session started = Some 7 /\
  fails W (SessionCall 7 "endSession") = Some (ExternalError 1) /\
  deferred W (SessionCall 7 "endSession") = true /\
  fst (run (tx W Rollback) started)
    = (Normal (Fulfilled tt), constructor conn_on) /\
  snd (run (tx W Rollback) started)
    = [Broadcast "BeforeTransactionRollback"; SessionCall 7 "abortTransaction";
       SessionCall 7 "endSession"; Broadcast "AfterTransactionRollback";
       LogQuery "ROLLBACK"].
Proof.
  cbn zeta. split; [discriminate|]. do 4 (split; [reflexivity|]).
  apply (close_drops_late_endSession_failure
           (failing_late (is_session_call "endSession")) Rollback started 7
           (ExternalError 1)); try reflexivity.
  discriminate.
Defined.
